(** * testVision.py: a shallow embedding of the ZED camera test script

    The script [src/vision/py_scripts/testVision.py] opens a stereo camera
    through the vendor module [pyzed.sl] (imported as [sl]), grabs frames,
    prints image metadata and looks up a distance in a depth buffer.

    The embedding follows the script statement by statement.  Python values
    are an inductive type, exceptions and standard output are explicit
    (a state-and-exception monad over a [World]), and the vendor module is
    split in two parts:
    - the names the script reads from [sl] at run time (enumeration members
      such as [sl.ERROR_CODE.SUCCESS]) are looked up in a namespace [sl]
      that every function takes as a parameter;
    - the device behind [sl.Camera] is a [Device] record of observations
      (what [open] answers, what each [grab] delivers). *)

From Stdlib Require Import ZArith Ascii String List DecimalString.
From Stdlib Require Import Floats.PrimFloat Floats.FloatOps Floats.SpecFloat.
From Stdlib Require Import Floats.FloatAxioms.
From stdpp Require Import gmap strings.
Import ListNotations.

Local Open Scope string_scope.
Local Open Scope list_scope.
Local Open Scope Z_scope.
Set Warnings "-register-all".

(** ** Python values *)

(** The fragment of Python's value universe the script can see.  A float is
    an IEEE 754 binary64 number, as in CPython.  [VEnum cls name] is the
    member [name] of the enumeration class [cls] of the vendor module;
    [VArray] is a one-dimensional NumPy array; [VMat] is an [sl.Mat], given
    by what its accessors answer; [VCamera] is the process's one
    [sl.Camera] object. *)
Inductive value : Type :=
| VNone
| VBool (b : bool)
| VInt (n : Z)
| VFloat (x : float)
| VEnum (cls name : string)
| VTuple (items : list value)
| VArray (items : list value)
| VTimestamp (ns : Z)
| VMat (width height : Z) (get_value : Z -> Z -> value)
| VCamera.

Inductive exn : Type :=
| AttributeError (attr : string)
| TypeError
| ValueError
| IndexError
| SystemExit (code : Z).

Inductive outcome (A : Type) : Type :=
| Ret (a : A)
| Raise (e : exn).
Arguments Ret {A} a.
Arguments Raise {A} e.

#[global] Instance outcome_ret : MRet outcome := fun A a => Ret a.

#[global] Instance outcome_bind : MBind outcome := fun A B f r =>
  match r with
  | Ret a => f a
  | Raise e => Raise e
  end.

(** An [sl.Mat]: its size and what [get_value(x, y)] answers. *)
Record Mat : Type := {
  mat_width : Z;
  mat_height : Z;
  mat_get_value : Z -> Z -> value
}.

Definition mat_value (m : Mat) : value :=
  VMat (mat_width m) (mat_height m) (mat_get_value m).

(** The members of [sl.ERROR_CODE] the device answers with. *)
Definition ERROR_CODE (name : string) : value := VEnum "ERROR_CODE" name.

(** [sl.Mat()]: an empty matrix.  The script never reads a pixel of one. *)
Definition Mat_new : Mat :=
  {| mat_width := 0; mat_height := 0;
     mat_get_value := fun _ _ => VTuple [ERROR_CODE "FAILURE"; VNone] |}.

(** ** Numbers *)

Definition is_number (v : value) : bool :=
  match v with VBool _ | VInt _ | VFloat _ => true | _ => false end.

(** The exact value of a finite float, compared with an integer. *)
Definition float_eq_Z (x : float) (n : Z) : bool :=
  match Prim2SF x with
  | S754_zero _ => n =? 0
  | S754_finite s m e =>
      let sm := if s then Z.neg m else Z.pos m in
      if 0 <=? e then sm * 2 ^ e =? n else sm =? n * 2 ^ (- e)
  | _ => false
  end.

(** [int] to [float], rounded to nearest even like CPython does (for an
    integer within the range of a float). *)
Definition Z_to_float (n : Z) : float :=
  SF2Prim (binary_normalize prec emax n 0 false).

Definition bool_to_Z (b : bool) : Z := if b then 1 else 0.

(** Python's [==] on two values that are not arrays. *)
Fixpoint py_eqb (a b : value) {struct a} : bool :=
  match a, b with
  | VNone, VNone => true
  | VBool x, VBool y => Bool.eqb x y
  | VBool x, VInt y => bool_to_Z x =? y
  | VInt x, VBool y => x =? bool_to_Z y
  | VInt x, VInt y => x =? y
  | VFloat x, VFloat y => PrimFloat.eqb x y
  | VFloat x, VInt y => float_eq_Z x y
  | VInt x, VFloat y => float_eq_Z y x
  | VFloat x, VBool y => float_eq_Z x (bool_to_Z y)
  | VBool x, VFloat y => float_eq_Z y (bool_to_Z x)
  | VEnum c n, VEnum c' n' => String.eqb c c' && String.eqb n n'
  | VTuple xs, VTuple ys =>
      (fix go (xs ys : list value) {struct xs} : bool :=
         match xs, ys with
         | [], [] => true
         | x :: xs', y :: ys' => py_eqb x y && go xs' ys'
         | _, _ => false
         end) xs ys
  | VTimestamp x, VTimestamp y => x =? y
  | VCamera, VCamera => true
  | _, _ => false
  end.

(** [a == b]: NumPy arrays compare element by element and give an array. *)
Definition py_eq (a b : value) : value :=
  match a with
  | VArray xs => VArray (map (fun x => VBool (py_eqb x b)) xs)
  | _ => VBool (py_eqb a b)
  end.

Definition py_ne (a b : value) : value :=
  match a with
  | VArray xs => VArray (map (fun x => VBool (negb (py_eqb x b))) xs)
  | _ => VBool (negb (py_eqb a b))
  end.

(** The truth value an [if] takes.  Members of a plain [enum.Enum] class
    are always true; an array of more than one element has no truth
    value. *)
Fixpoint truthy (v : value) : outcome bool :=
  match v with
  | VNone => Ret false
  | VBool b => Ret b
  | VInt n => Ret (negb (n =? 0))
  | VFloat x => Ret (negb (PrimFloat.eqb x 0%float))
  | VEnum _ _ => Ret true
  | VTuple xs => Ret (match xs with [] => false | _ => true end)
  | VArray [] => Ret false
  | VArray [x] => truthy x
  | VArray _ => Raise ValueError
  | VTimestamp _ | VMat _ _ _ | VCamera => Ret true
  end.

(** [v[i]] for a tuple or an array. *)
Definition py_getitem (v : value) (i : Z) : outcome value :=
  match v with
  | VTuple xs | VArray xs =>
      let len := Z.of_nat (length xs) in
      let j := if i <? 0 then i + len else i in
      if (0 <=? j) && (j <? len)
      then match nth_error xs (Z.to_nat j) with
           | Some x => Ret x
           | None => Raise IndexError
           end
      else Raise IndexError
  | _ => Raise TypeError
  end.

(** [a, b = v]. *)
Definition unpack2 (v : value) : outcome (value * value) :=
  match v with
  | VTuple [a; b] | VArray [a; b] => Ret (a, b)
  | VTuple _ | VArray _ => Raise ValueError
  | _ => Raise TypeError
  end.

Definition number_to_float (v : value) : float :=
  match v with
  | VBool b => Z_to_float (bool_to_Z b)
  | VInt n => Z_to_float n
  | VFloat x => x
  | _ => nan
  end.

Definition square_number (v : value) : value :=
  match v with
  | VBool b => VInt (bool_to_Z b * bool_to_Z b)
  | VInt n => VInt (n * n)
  | VFloat x => VFloat (x * x)%float
  | _ => v
  end.

(** [v ** 2], for numbers and for arrays of numbers. *)
Definition py_pow2 (v : value) : outcome value :=
  match v with
  | VArray xs =>
      if forallb is_number xs then Ret (VArray (map square_number xs))
      else Raise TypeError
  | _ => if is_number v then Ret (square_number v) else Raise TypeError
  end.

(** [math.sqrt]: it takes exactly one argument, a non-negative number. *)
Definition math_sqrt (args : list value) : outcome value :=
  match args with
  | [v] =>
      if is_number v then
        let x := number_to_float v in
        if (x <? 0)%float then Raise ValueError
        else Ret (VFloat (PrimFloat.sqrt x))
      else Raise TypeError
  | _ => Raise TypeError
  end.

(** [np.isnan] and [np.isinf].  A number gives a boolean, a sequence of
    numbers an array of booleans; anything that holds an object which is
    not a number is refused ([TypeError]; a NumPy that refuses to build a
    ragged array says [ValueError] for a sequence that holds another
    sequence). *)
Definition np_test (test : float -> bool) (v : value) : outcome value :=
  match v with
  | VTuple xs | VArray xs =>
      if forallb is_number xs
      then Ret (VArray (map (fun x => VBool (test (number_to_float x))) xs))
      else Raise TypeError
  | _ =>
      if is_number v then Ret (VBool (test (number_to_float v)))
      else Raise TypeError
  end.

Definition np_isnan (v : value) : outcome value :=
  np_test is_nan v.

Definition np_isinf (v : value) : outcome value :=
  np_test is_infinity v.

(** [str] of an integer. *)
Definition str_int (n : Z) : string := NilZero.string_of_int (Z.to_int n).

(** ** The camera and the world *)

(** The attributes of [sl.InitParameters] the script assigns. *)
Record InitParameters : Type := {
  sdk_verbose : value;
  camera_resolution : value;
  camera_fps : value;
  depth_mode : value
}.

(** [sl.InitParameters()]: the vendor's defaults are not modelled, the
    script overwrites each of the four attributes before it opens. *)
Definition InitParameters_new : InitParameters :=
  {| sdk_verbose := VNone; camera_resolution := VNone;
     camera_fps := VNone; depth_mode := VNone |}.

(** One frame as the device holds it after a grab: the image of each view,
    the buffer of each measure, the timestamp of each time reference. *)
Record Frame : Type := {
  frame_image : value -> Mat;
  frame_measure : value -> Mat;
  frame_timestamp : value -> Z
}.

(** The physical camera: the [ERROR_CODE] member [open] answers with, the
    serial number, and for the n-th [grab] its [ERROR_CODE] member and the
    frame it delivers when that member is [SUCCESS]. *)
Record Device : Type := {
  dev_open : InitParameters -> string;
  dev_serial : Z;
  dev_grab : nat -> string;
  dev_frame : nat -> Frame
}.

(** The calls the process makes on its camera, in order. *)
Inductive call : Type :=
| Call_open (p : InitParameters)
| Call_get_camera_information
| Call_grab
| Call_retrieve_image (view : value)
| Call_retrieve_measure (measure : value)
| Call_get_timestamp (ref : value)
| Call_close.

Record World : Type := {
  stdout : list string;
  device : Device;
  grabs : nat;
  current : option Frame;
  opened : bool;
  calls : list call
}.

Definition boot (d : Device) : World :=
  {| stdout := []; device := d; grabs := 0%nat; current := None;
     opened := false; calls := [] |}.

Definition with_stdout (w : World) (out : list string) : World :=
  {| stdout := out; device := device w; grabs := grabs w;
     current := current w; opened := opened w; calls := calls w |}.

Definition with_call (w : World) (c : call) : World :=
  {| stdout := stdout w; device := device w; grabs := grabs w;
     current := current w; opened := opened w; calls := calls w ++ [c] |}.

(** ** Statements: state and exceptions *)

Definition M (A : Type) : Type := World -> outcome A * World.

#[global] Instance M_ret : MRet M := fun A a w => (Ret a, w).

#[global] Instance M_bind : MBind M := fun A B f m w =>
  match m w with
  | (Ret a, w') => f a w'
  | (Raise e, w') => (Raise e, w')
  end.

Definition raise {A} (e : exn) : M A := fun w => (Raise e, w).

Definition lift {A} (r : outcome A) : M A := fun w => (r, w).

Definition when (c : bool) (body : M unit) : M unit :=
  if c then body else mret tt.

(** [print(s)]: one more line on standard output. *)
Definition print (s : string) : M unit :=
  fun w => (Ret tt, with_stdout w (stdout w ++ [s])).

(** [exit(code)]. *)
Definition py_exit {A} (code : Z) : M A := raise (SystemExit code).

(** The status the process ends with: 0 when the script runs to its end,
    the code of an [exit], 1 after any other uncaught exception. *)
Definition exit_status {A} (r : outcome A) : Z :=
  match r with
  | Ret _ => 0
  | Raise (SystemExit code) => code
  | Raise _ => 1
  end.

(** ** Objects and their methods *)

Definition Camera_methods : list string :=
  ["open"; "get_camera_information"; "grab"; "retrieve_image";
   "retrieve_measure"; "get_timestamp"; "close"].

Definition Mat_methods : list string :=
  ["get_width"; "get_height"; "get_value"].

Definition has_method (self : value) (name : string) : bool :=
  match self with
  | VCamera => existsb (String.eqb name) Camera_methods
  | VMat _ _ _ => existsb (String.eqb name) Mat_methods
  | _ => false
  end.

(** [self.name]: an object without the attribute raises. *)
Definition bind_method (self : value) (name : string) : M unit :=
  if has_method self name then mret tt else raise (AttributeError name).

Definition Camera_open (p : InitParameters) : M value := fun w =>
  let code := dev_open (device w) p in
  (Ret (ERROR_CODE code),
   {| stdout := stdout w; device := device w; grabs := grabs w;
      current := current w; opened := String.eqb code "SUCCESS";
      calls := calls w ++ [Call_open p] |}).

(** [zed.get_camera_information().serial_number]. *)
Definition Camera_serial_number : M Z := fun w =>
  (Ret (dev_serial (device w)), with_call w Call_get_camera_information).

Definition Camera_grab : M value := fun w =>
  let code := dev_grab (device w) (grabs w) in
  (Ret (ERROR_CODE code),
   {| stdout := stdout w; device := device w; grabs := S (grabs w);
      current := if String.eqb code "SUCCESS"
                 then Some (dev_frame (device w) (grabs w))
                 else current w;
      opened := opened w; calls := calls w ++ [Call_grab] |}).

(** [camera.retrieve_image(mat, view)] fills [mat] in place; the matrix
    after the call is what the model returns (the script drops the
    method's own return value). *)
Definition Camera_retrieve_image (mat : Mat) (view : value) : M Mat :=
  fun w =>
    (Ret (match current w with Some f => frame_image f view | None => mat end),
     with_call w (Call_retrieve_image view)).

Definition Camera_retrieve_measure (mat : Mat) (measure : value) : M Mat :=
  fun w =>
    (Ret (match current w with
          | Some f => frame_measure f measure
          | None => mat
          end),
     with_call w (Call_retrieve_measure measure)).

Definition Camera_get_timestamp (ref : value) : M Z := fun w =>
  (Ret (match current w with Some f => frame_timestamp f ref | None => 0 end),
   with_call w (Call_get_timestamp ref)).

Definition Camera_close : M value := fun w =>
  (Ret VNone,
   {| stdout := stdout w; device := device w; grabs := grabs w;
      current := current w; opened := false;
      calls := calls w ++ [Call_close] |}).

(** A value passed where the vendor module expects a C [int]. *)
Definition as_int (v : value) : option Z :=
  match v with
  | VInt n => Some n
  | VBool b => Some (bool_to_Z b)
  | _ => None
  end.

(** [mat.get_value(x, y)] for integer coordinates. *)
Definition Mat_get_value (self x y : value) : M value :=
  match self with
  | VMat _ _ g =>
      match as_int x, as_int y with
      | Some i, Some j => mret (g i j)
      | _, _ => raise TypeError
      end
  | _ => raise (AttributeError "get_value")
  end.

(** ** The script *)

Definition newline : string := String "010"%char "".

Section Script.

(** The vendor module as the script sees it: each enumeration class maps
    the names it defines (aliases included) to its members.  A name the
    class does not define raises [AttributeError], as Python's attribute
    lookup does. *)
Variable sl : gmap string (gmap string string).

(** What [str] makes of an [sl.Timestamp] holding the given value. *)
Variable Timestamp_str : Z -> string.

(** [sl.cls.name]. *)
Definition sl_attr (cls name : string) : M value :=
  match sl !! cls with
  | None => raise (AttributeError cls)
  | Some members =>
      match members !! name with
      | None => raise (AttributeError name)
      | Some member => mret (VEnum cls member)
      end
  end.

(** The line [captureImage] and [getImageandDepth] print. *)
Definition image_line (width height timestamp : Z) : string :=
  "Image resolution : " +:+ str_int width +:+ " x " +:+ str_int height
    +:+ " || Image timestamp : " +:+ Timestamp_str timestamp +:+ newline.

Definition initCamera : M value :=
  print "Initializing camera...";;
  let zed := VCamera in
  let init_params := InitParameters_new in
  let init_params :=
    {| sdk_verbose := VBool false;
       camera_resolution := camera_resolution init_params;
       camera_fps := camera_fps init_params;
       depth_mode := depth_mode init_params |} in
  resolution ← sl_attr "RESOLUTION" "HD720";
  let init_params :=
    {| sdk_verbose := sdk_verbose init_params;
       camera_resolution := resolution;
       camera_fps := camera_fps init_params;
       depth_mode := depth_mode init_params |} in
  let init_params :=
    {| sdk_verbose := sdk_verbose init_params;
       camera_resolution := camera_resolution init_params;
       camera_fps := VInt 30;
       depth_mode := depth_mode init_params |} in
  mode ← sl_attr "DEPTH_MODE" "PERFORMANCE";
  let init_params :=
    {| sdk_verbose := sdk_verbose init_params;
       camera_resolution := camera_resolution init_params;
       camera_fps := camera_fps init_params;
       depth_mode := mode |} in
  bind_method zed "open";;
  err ← Camera_open init_params;
  success ← sl_attr "ERROR_CODE" "SUCCESS";
  failed ← lift (truthy (py_ne err success));
  when failed
    (print "An unexpected error occurred while opening the camera.";;
     py_exit 1);;
  bind_method zed "get_camera_information";;
  zed_serial ← Camera_serial_number;
  print ("Camera serial number: " +:+ " " +:+ str_int zed_serial);;
  mret zed.

Definition captureImage (camera : value) : M value :=
  let image := Mat_new in
  bind_method camera "grab";;
  err ← Camera_grab;
  success ← sl_attr "ERROR_CODE" "SUCCESS";
  ok ← lift (truthy (py_eq err success));
  if ok : bool then
    bind_method camera "retrieve_image";;
    view ← sl_attr "VIEW" "LEFT";
    image ← Camera_retrieve_image image view;
    bind_method camera "get_timestamp";;
    ref ← sl_attr "TIME_REFERENCE" "IMAGE";
    timestamp ← Camera_get_timestamp ref;
    print (image_line (mat_width image) (mat_height image) timestamp);;
    mret VNone
  else mret VNone.

Definition getDepth (camera : value) : M value :=
  let depth := Mat_new in
  bind_method camera "grab";;
  err ← Camera_grab;
  success ← sl_attr "ERROR_CODE" "success";
  ok ← lift (truthy (py_eq err success));
  if ok : bool then
    bind_method camera "retrieve_measure";;
    measure ← sl_attr "MEASURE" "DEPTH";
    depth ← Camera_retrieve_measure depth measure;
    mret VNone
  else mret VNone.

Definition getImageandDepth (camera : value) : M value :=
  let image := Mat_new in
  let depth := Mat_new in
  bind_method camera "grab";;
  err ← Camera_grab;
  success ← sl_attr "ERROR_CODE" "SUCCESS";
  ok ← lift (truthy (py_eq err success));
  if ok : bool then
    bind_method camera "retrieve_image";;
    view ← sl_attr "VIEW" "LEFT";
    image ← Camera_retrieve_image image view;
    bind_method camera "retrieve_measure";;
    measure ← sl_attr "MEASURE" "DEPTH";
    depth ← Camera_retrieve_measure depth measure;
    bind_method camera "get_timestamp";;
    ref ← sl_attr "TIME_REFERENCE" "IMAGE";
    timestamp ← Camera_get_timestamp ref;
    print (image_line (mat_width image) (mat_height image) timestamp);;
    mret VNone
  else mret VNone.

(** [depth_map.get_value(point[0], point[1])]. *)
Definition lookup_point (depth_map point : value) : M value :=
  bind_method depth_map "get_value";;
  x ← lift (py_getitem point 0);
  y ← lift (py_getitem point 1);
  Mat_get_value depth_map x y.

(** The three checks on [distance] and the [return] that end
    [getDistForPoint] (lines 79 to 85). *)
Definition report_distance (distance : value) : M value :=
  unset ← lift (truthy (py_eq distance (VInt (-1))));
  when unset (print "Error: Could not get distance for point");;
  nan ← lift (np_isnan distance ≫= truthy);
  when nan (print "Error: Maybe you're too close to the object?");;
  inf ← lift (np_isinf distance ≫= truthy);
  when inf (print "Error: Maybe you're too far from the object?");;
  mret distance.

Definition getDistForPoint (depth_map point depth_mode : value) : M value :=
  let distance := VInt (-1) in
  DEPTH ← sl_attr "MEASURE" "DEPTH";
  is_depth ← lift (truthy DEPTH);
  distance ←
    (if is_depth : bool then
       lookup_point depth_map point
     else
       XYZRGBA ← sl_attr "MEASURE" "XYZRGBA";
       is_cloud ← lift (truthy XYZRGBA);
       if is_cloud : bool then
         pair ← lookup_point depth_map point;
         '(err, point_cloud_val) ← lift (unpack2 pair);
         a ← lift (py_getitem point_cloud_val 0 ≫= py_pow2);
         b ← lift (py_getitem point_cloud_val 1 ≫= py_pow2);
         c ← lift (py_getitem point_cloud_val 2 ≫= py_pow2);
         lift (math_sqrt [a; b; c])
       else
         print "Error: Unknown depth mode";;
         mret distance);
  report_distance distance.

(** The body of [if __name__ == "__main__":]. *)
Definition main : M value :=
  zed ← initCamera;
  captureImage zed;;
  getDepth zed;;
  DEPTH ← sl_attr "MEASURE" "DEPTH";
  getDistForPoint zed (VTuple [VInt 0; VInt 0]) DEPTH;;
  bind_method zed "close";;
  Camera_close.

(** Running the script as a process on a device: the outcome of [main] on
    the freshly booted world. *)
Definition run (d : Device) : outcome value * World := main (boot d).

End Script.

(** ** The vendor module and sample devices *)

(** An enumeration class whose members are the given names, no aliases. *)
Definition enum_class (names : list string) : gmap string string :=
  list_to_map (map (fun name => (name, name)) names).

(** The enumeration classes of [pyzed.sl] that the script names, with
    members of the vendor's API.  Every member is spelled in capitals;
    [ERROR_CODE] has no member called [success]. *)
Definition pyzed : gmap string (gmap string string) :=
  list_to_map
    [("ERROR_CODE",
      enum_class ["SUCCESS"; "FAILURE"; "CAMERA_NOT_DETECTED";
                  "CAMERA_NOT_INITIALIZED"; "INVALID_FUNCTION_PARAMETERS"]);
     ("RESOLUTION", enum_class ["HD2K"; "HD1080"; "HD720"; "VGA"]);
     ("DEPTH_MODE", enum_class ["NONE"; "PERFORMANCE"; "QUALITY"; "ULTRA"]);
     ("VIEW", enum_class ["LEFT"; "RIGHT"; "DEPTH"]);
     ("MEASURE",
      enum_class ["DISPARITY"; "DEPTH"; "CONFIDENCE"; "XYZ"; "XYZRGBA"]);
     ("TIME_REFERENCE", enum_class ["IMAGE"; "CURRENT"])].

(** [str] of a timestamp as its count of nanoseconds. *)
Definition nanoseconds_str (ns : Z) : string := str_int ns.

(** A 1280 x 720 depth buffer in which every lookup succeeds with 1.5. *)
Definition depth_buffer : Mat :=
  {| mat_width := 1280; mat_height := 720;
     mat_get_value := fun _ _ => VTuple [ERROR_CODE "SUCCESS"; VFloat 1.5] |}.

(** A depth buffer in which the lookup at pixel (0,0) fails. *)
Definition unset_buffer : Mat :=
  {| mat_width := 1280; mat_height := 720;
     mat_get_value := fun x y =>
       if (x =? 0) && (y =? 0)
       then VTuple [ERROR_CODE "FAILURE"; VFloat nan]
       else VTuple [ERROR_CODE "SUCCESS"; VFloat 1.5] |}.

(** A point cloud in which every pixel is the point (0,0,0). *)
Definition origin_cloud : Mat :=
  {| mat_width := 1280; mat_height := 720;
     mat_get_value := fun _ _ =>
       VTuple [ERROR_CODE "SUCCESS";
               VArray [VFloat 0; VFloat 0; VFloat 0; VFloat 0]] |}.

Definition left_image : Mat :=
  {| mat_width := 1280; mat_height := 720;
     mat_get_value := fun _ _ =>
       VTuple [ERROR_CODE "SUCCESS";
               VArray [VInt 0; VInt 0; VInt 0; VInt 255]] |}.

Definition sample_frame (n : nat) : Frame :=
  {| frame_image := fun _ => left_image;
     frame_measure := fun _ => depth_buffer;
     frame_timestamp := fun _ => 1000 + Z.of_nat n |}.

(** A camera that opens and delivers a frame at every grab. *)
Definition working_camera : Device :=
  {| dev_open := fun _ => "SUCCESS"; dev_serial := 12345;
     dev_grab := fun _ => "SUCCESS"; dev_frame := sample_frame |}.

(** No camera is plugged in. *)
Definition missing_camera : Device :=
  {| dev_open := fun _ => "CAMERA_NOT_DETECTED"; dev_serial := 0;
     dev_grab := fun _ => "CAMERA_NOT_INITIALIZED";
     dev_frame := sample_frame |}.

(** ** Vocabulary of the properties *)

(** The member a name of the vendor module resolves to, if any. *)
Definition sl_lookup (sl : gmap string (gmap string string))
    (cls name : string) : option string :=
  sl !! cls ≫= (.!! name).

(** The configuration [initCamera] opens the camera with. *)
Definition fixed_configuration : InitParameters :=
  {| sdk_verbose := VBool false;
     camera_resolution := VEnum "RESOLUTION" "HD720";
     camera_fps := VInt 30;
     depth_mode := VEnum "DEPTH_MODE" "PERFORMANCE" |}.

(** The names [initCamera] reads from the vendor module resolve to the
    members of the same name. *)
Definition open_names (sl : gmap string (gmap string string)) : Prop :=
  sl_lookup sl "RESOLUTION" "HD720" = Some "HD720" /\
  sl_lookup sl "DEPTH_MODE" "PERFORMANCE" = Some "PERFORMANCE" /\
  sl_lookup sl "ERROR_CODE" "SUCCESS" = Some "SUCCESS".

(** The names [captureImage] reads resolve to the members of the same
    name. *)
Definition image_names (sl : gmap string (gmap string string)) : Prop :=
  sl_lookup sl "ERROR_CODE" "SUCCESS" = Some "SUCCESS" /\
  sl_lookup sl "VIEW" "LEFT" = Some "LEFT" /\
  sl_lookup sl "TIME_REFERENCE" "IMAGE" = Some "IMAGE".

Definition depth_name (sl : gmap string (gmap string string)) : Prop :=
  sl_lookup sl "MEASURE" "DEPTH" = Some "DEPTH".

(** The next [grab] delivers a frame. *)
Definition next_grab_succeeds (w : World) : Prop :=
  dev_grab (device w) (grabs w) = "SUCCESS".

Definition next_frame (w : World) : Frame := dev_frame (device w) (grabs w).

(** The world after a successful grab and the given further calls and
    printed lines. *)
Definition after_grab (w : World) (more : list call) (lines : list string)
    : World :=
  {| stdout := stdout w ++ lines; device := device w; grabs := S (grabs w);
     current := Some (next_frame w); opened := opened w;
     calls := calls w ++ Call_grab :: more |}.

(** The world after a grab that delivered nothing. *)
Definition after_failed_grab (w : World) : World :=
  {| stdout := stdout w; device := device w; grabs := S (grabs w);
     current := current w; opened := opened w;
     calls := calls w ++ [Call_grab] |}.

(** What [captureImage] and [getImageandDepth] report of a frame. *)
Definition frame_report (Timestamp_str : Z -> string) (f : Frame) : string :=
  image_line Timestamp_str
    (mat_width (frame_image f (VEnum "VIEW" "LEFT")))
    (mat_height (frame_image f (VEnum "VIEW" "LEFT")))
    (frame_timestamp f (VEnum "TIME_REFERENCE" "IMAGE")).

(** A call hands data to its caller when it returns a value other than
    [None]. *)
Definition returns_data (r : outcome value) : Prop :=
  exists v, r = Ret v /\ v <> VNone.

(** The three messages [getDistForPoint] prints about its result. *)
Definition diagnostics : list string :=
  ["Error: Could not get distance for point";
   "Error: Maybe you're too close to the object?";
   "Error: Maybe you're too far from the object?"].

(** The pixel every example looks up. *)
Definition origin_pixel : value := VTuple [VInt 0; VInt 0].

(** A point cloud in which every pixel is the point (3, 4, 12), at distance
    13 from the origin. *)
Definition cloud_3_4_12 : Mat :=
  {| mat_width := 1280; mat_height := 720;
     mat_get_value := fun _ _ =>
       VTuple [ERROR_CODE "SUCCESS";
               VArray [VFloat 3; VFloat 4; VFloat 12; VFloat 0]] |}.

(** The vendor module with [success] added as an alias of [SUCCESS]. *)
Definition pyzed_with_alias : gmap string (gmap string string) :=
  <["ERROR_CODE" :=
      <["success" := "SUCCESS"]>
        (enum_class ["SUCCESS"; "FAILURE"; "CAMERA_NOT_DETECTED";
                     "CAMERA_NOT_INITIALIZED";
                     "INVALID_FUNCTION_PARAMETERS"])]> pyzed.

(** A statement keeps a relation between the world it starts in and the
    world it leaves, whether it returns or raises. *)
Definition keeps {A} (R : World -> World -> Prop) (m : M A) : Prop :=
  forall w, R w (snd (m w)).

(** A statement that leaves the world as it found it. *)
Definition pure_step {A} (m : M A) : Prop := forall w, snd (m w) = w.

(** The second world shows the same observation as the first. *)
Definition unchanged {B} (proj : World -> B) (w w' : World) : Prop :=
  proj w' = proj w.

(** The second world is the first with lines among [messages] printed, and
    nothing else changed. *)
Definition only_prints (messages : list string) (w w' : World) : Prop :=
  exists lines,
    incl lines messages /\ w' = with_stdout w (stdout w ++ lines).

(** Every message [getDistForPoint] can print. *)
Definition distance_messages : list string :=
  "Error: Unknown depth mode" :: diagnostics.

(** The diagnostics the three checks of [getDistForPoint] print for a
    float, in the order of the checks. *)
Definition float_lines (x : float) : list string :=
  (if float_eq_Z x (-1)
   then ["Error: Could not get distance for point"] else []) ++
  (if is_nan x
   then ["Error: Maybe you're too close to the object?"] else []) ++
  (if is_infinity x
   then ["Error: Maybe you're too far from the object?"] else []).

(** A buffer whose [get_value] answers with the bare number [x]. *)
Definition scalar_buffer (x : float) : Mat :=
  {| mat_width := 1280; mat_height := 720;
     mat_get_value := fun _ _ => VFloat x |}.

(** What the camera keeps through every statement after a grab. *)
Definition camera_state (w : World) : Device * nat * bool :=
  (device w, grabs w, opened w).

(** * Properties *)

(** ** Stepping through a statement sequence *)

Lemma bind_Ret {A B} (m : M A) (f : A -> M B) (w w' : World) (a : A) :
  m w = (Ret a, w') -> (m ≫= f) w = f a w'.
Proof. intros H. unfold mbind, M_bind. now rewrite H. Qed.

Lemma bind_Raise {A B} (m : M A) (f : A -> M B) (w w' : World) (e : exn) :
  m w = (Raise e, w') -> (m ≫= f) w = (Raise e, w').
Proof. intros H. unfold mbind, M_bind. now rewrite H. Qed.

Lemma bind_fst_Ret {A B} (m : M A) (f : A -> M B) (w : World) (b : B) :
  fst ((m ≫= f) w) = Ret b ->
  exists a w', m w = (Ret a, w') /\ fst (f a w') = Ret b.
Proof.
  unfold mbind, M_bind. destruct (m w) as [[a|e] w']; simpl.
  - intros H. now exists a, w'.
  - discriminate.
Qed.

(** Run the first statement of a sequence, [tac] proving what it does. *)
Tactic Notation "step" tactic3(tac) :=
  match goal with
  | |- context [(?m ≫= ?f) ?w] =>
      let H := fresh "Hstep" in
      eassert (H : m w = (Ret _, _)) by tac;
      rewrite (bind_Ret m f _ _ _ H); clear H; cbv beta iota
  end.

Lemma sl_attr_Some sl cls name member :
  sl_lookup sl cls name = Some member ->
  forall w, sl_attr sl cls name w = (Ret (VEnum cls member), w).
Proof.
  unfold sl_lookup, sl_attr. intros H w.
  destruct (sl !! cls) as [members|]; simpl in H; [|discriminate].
  now rewrite H.
Qed.


Lemma str_int_nonempty (n : Z) : str_int n <> "".
Proof.
  unfold str_int. destruct (Z.to_int n) as [d|d]; simpl.
  - destruct d; discriminate.
  - discriminate.
Qed.

(** Python's [==] on two members of one enumeration class. *)
Lemma py_eq_enum cls a b :
  truthy (py_eq (VEnum cls a) (VEnum cls b)) = Ret (String.eqb a b).
Proof. simpl. now rewrite String.eqb_refl. Qed.

Lemma pyzed_open_names : open_names pyzed.
Proof. repeat split; vm_compute; reflexivity. Qed.

(** ** Opening the camera *)

Lemma initCamera_opened sl w :
  open_names sl ->
  dev_open (device w) fixed_configuration = "SUCCESS" ->
  initCamera sl w =
    (Ret VCamera,
     {| stdout := stdout w ++
          ["Initializing camera...";
           "Camera serial number: " +:+ " " +:+ str_int (dev_serial (device w))];
        device := device w; grabs := grabs w; current := current w;
        opened := true;
        calls := calls w ++
          [Call_open fixed_configuration; Call_get_camera_information] |}).
Proof.
  intros (Hres & Hmode & Hok) Hopen. unfold initCamera.
  unfold mbind, M_bind, print at 1. simpl.
  rewrite (sl_attr_Some _ _ _ _ Hres), (sl_attr_Some _ _ _ _ Hmode).
  unfold Camera_open. simpl. fold fixed_configuration. rewrite Hopen.
  rewrite (sl_attr_Some _ _ _ _ Hok). simpl.
  unfold with_stdout, with_call. simpl.
  now rewrite <- !app_assoc.
Qed.

Lemma initCamera_failed sl w :
  open_names sl ->
  dev_open (device w) fixed_configuration <> "SUCCESS" ->
  initCamera sl w =
    (Raise (SystemExit 1),
     {| stdout := stdout w ++
          ["Initializing camera...";
           "An unexpected error occurred while opening the camera."];
        device := device w; grabs := grabs w; current := current w;
        opened := false;
        calls := calls w ++ [Call_open fixed_configuration] |}).
Proof.
  intros (Hres & Hmode & Hok) Hopen. unfold initCamera.
  unfold mbind, M_bind, print at 1. simpl.
  rewrite (sl_attr_Some _ _ _ _ Hres), (sl_attr_Some _ _ _ _ Hmode).
  unfold Camera_open. simpl. fold fixed_configuration.
  rewrite (sl_attr_Some _ _ _ _ Hok). simpl.
  apply String.eqb_neq in Hopen. rewrite Hopen. simpl.
  unfold with_stdout. simpl.
  now rewrite <- !app_assoc.
Qed.

(** C8: [initCamera], which opens with the fixed configuration, ends in one
    of two ways and no other, and which of the two is decided by what
    [open] answered.  When [open] answered [SUCCESS] it returns the camera
    handle after it printed the serial number, the serial number it
    reported is not the empty text, and the camera is open.  When [open]
    answered anything else it prints the failure message and raises
    [SystemExit 1], so that the process exits with status 1, and nothing
    but the [open] was called. *)
Theorem initCamera_two_outcomes sl w :
  open_names sl ->
  let answer := dev_open (device w) fixed_configuration in
  let serial := str_int (dev_serial (device w)) in
  (answer = "SUCCESS" /\
   serial <> "" /\
   initCamera sl w =
     (Ret VCamera,
      {| stdout := stdout w ++
           ["Initializing camera...";
            "Camera serial number: " +:+ " " +:+ serial];
         device := device w; grabs := grabs w; current := current w;
         opened := true;
         calls := calls w ++
           [Call_open fixed_configuration; Call_get_camera_information] |}))
  \/
  (answer <> "SUCCESS" /\
   exit_status (fst (initCamera sl w)) = 1 /\
   initCamera sl w =
     (Raise (SystemExit 1),
      {| stdout := stdout w ++
           ["Initializing camera...";
            "An unexpected error occurred while opening the camera."];
         device := device w; grabs := grabs w; current := current w;
         opened := false;
         calls := calls w ++ [Call_open fixed_configuration] |})).
Proof.
  intros Hnames. cbv zeta.
  destruct (String.eqb_spec (dev_open (device w) fixed_configuration) "SUCCESS")
    as [Hopen|Hopen].
  - left. split; [exact Hopen|]. split; [apply str_int_nonempty|].
    now apply initCamera_opened.
  - right. split; [exact Hopen|].
    rewrite (initCamera_failed sl w Hnames Hopen). now split.
Qed.

Lemma initCamera_two_outcomes_witness :
  let sl := pyzed in
  let w := boot working_camera in
  open_names sl /\
  (let answer := dev_open (device w) fixed_configuration in
   let serial := str_int (dev_serial (device w)) in
   (answer = "SUCCESS" /\
    serial <> "" /\
    initCamera sl w =
      (Ret VCamera,
       {| stdout := stdout w ++
            ["Initializing camera...";
             "Camera serial number: " +:+ " " +:+ serial];
          device := device w; grabs := grabs w; current := current w;
          opened := true;
          calls := calls w ++
            [Call_open fixed_configuration; Call_get_camera_information] |}))
   \/
   (answer <> "SUCCESS" /\
    exit_status (fst (initCamera sl w)) = 1 /\
    initCamera sl w =
      (Raise (SystemExit 1),
       {| stdout := stdout w ++
            ["Initializing camera...";
             "An unexpected error occurred while opening the camera."];
          device := device w; grabs := grabs w; current := current w;
          opened := false;
          calls := calls w ++ [Call_open fixed_configuration] |}))).
Proof.
  cbv zeta. split.
  - repeat split; vm_compute; reflexivity.
  - apply (initCamera_two_outcomes pyzed (boot working_camera)).
    repeat split; vm_compute; reflexivity.
Defined.

(** ** Grabbing and retrieving *)

Lemma captureImage_delivered sl ts w :
  image_names sl -> next_grab_succeeds w ->
  captureImage sl ts VCamera w =
    (Ret VNone,
     after_grab w
       [Call_retrieve_image (VEnum "VIEW" "LEFT");
        Call_get_timestamp (VEnum "TIME_REFERENCE" "IMAGE")]
       [frame_report ts (next_frame w)]).
Proof.
  intros (Hok & Hview & Href) Hgrab. unfold captureImage.
  unfold mbind, M_bind, Camera_grab. simpl.
  rewrite Hgrab, (sl_attr_Some _ _ _ _ Hok). simpl.
  rewrite (sl_attr_Some _ _ _ _ Hview). simpl.
  rewrite (sl_attr_Some _ _ _ _ Href). simpl.
  unfold after_grab, with_stdout, with_call, frame_report, next_frame. simpl.
  now rewrite <- !app_assoc.
Qed.

Lemma getImageandDepth_delivered sl ts w :
  image_names sl -> depth_name sl -> next_grab_succeeds w ->
  getImageandDepth sl ts VCamera w =
    (Ret VNone,
     after_grab w
       [Call_retrieve_image (VEnum "VIEW" "LEFT");
        Call_retrieve_measure (VEnum "MEASURE" "DEPTH");
        Call_get_timestamp (VEnum "TIME_REFERENCE" "IMAGE")]
       [frame_report ts (next_frame w)]).
Proof.
  intros (Hok & Hview & Href) Hdepth Hgrab. unfold getImageandDepth.
  unfold mbind, M_bind, Camera_grab. simpl.
  rewrite Hgrab, (sl_attr_Some _ _ _ _ Hok). simpl.
  rewrite (sl_attr_Some _ _ _ _ Hview). simpl.
  rewrite (sl_attr_Some _ _ _ _ Hdepth). simpl.
  rewrite (sl_attr_Some _ _ _ _ Href). simpl.
  unfold after_grab, with_stdout, with_call, frame_report, next_frame. simpl.
  now rewrite <- !app_assoc.
Qed.



(** C9: on the same successful grab, [captureImage] and [getImageandDepth]
    print the same line: the width and the height of the frame's left
    image and the frame's image timestamp. *)
Theorem same_grab_same_report sl ts w :
  image_names sl -> depth_name sl -> next_grab_succeeds w ->
  let f := next_frame w in
  let image_only := snd (captureImage sl ts VCamera w) in
  let image_and_depth := snd (getImageandDepth sl ts VCamera w) in
  stdout image_only =
    stdout w ++
      [image_line ts
         (mat_width (frame_image f (VEnum "VIEW" "LEFT")))
         (mat_height (frame_image f (VEnum "VIEW" "LEFT")))
         (frame_timestamp f (VEnum "TIME_REFERENCE" "IMAGE"))] /\
  stdout image_and_depth = stdout image_only /\
  current image_only = Some f /\
  current image_and_depth = Some f.
Proof.
  intros Himage Hdepth Hgrab. cbv zeta.
  rewrite (captureImage_delivered sl ts w Himage Hgrab).
  rewrite (getImageandDepth_delivered sl ts w Himage Hdepth Hgrab).
  repeat split.
Qed.

Lemma pyzed_image_names : image_names pyzed.
Proof. repeat split; vm_compute; reflexivity. Qed.

Lemma pyzed_depth_name : depth_name pyzed.
Proof. vm_compute; reflexivity. Qed.

Lemma same_grab_same_report_witness :
  let w := boot working_camera in
  let f := next_frame w in
  let image_only := snd (captureImage pyzed nanoseconds_str VCamera w) in
  let image_and_depth :=
    snd (getImageandDepth pyzed nanoseconds_str VCamera w) in
  (image_names pyzed /\ depth_name pyzed /\ next_grab_succeeds w) /\
  stdout image_only =
    stdout w ++
      [image_line nanoseconds_str
         (mat_width (frame_image f (VEnum "VIEW" "LEFT")))
         (mat_height (frame_image f (VEnum "VIEW" "LEFT")))
         (frame_timestamp f (VEnum "TIME_REFERENCE" "IMAGE"))] /\
  stdout image_and_depth = stdout image_only /\
  current image_only = Some f /\
  current image_and_depth = Some f.
Proof.
  cbv zeta. split.
  - repeat split; vm_compute; reflexivity.
  - apply (same_grab_same_report pyzed nanoseconds_str (boot working_camera)).
    + repeat split; vm_compute; reflexivity.
    + vm_compute; reflexivity.
    + reflexivity.
Defined.



(** Whatever the camera argument and the world, [getDepth] has no value to
    return but [None]. *)
Lemma getDepth_Ret_None sl camera w v :
  fst (getDepth sl camera w) = Ret v -> v = VNone.
Proof.
  unfold getDepth. intros H.
  apply bind_fst_Ret in H as (_ & w0 & _ & H).
  apply bind_fst_Ret in H as (err & w1 & _ & H).
  apply bind_fst_Ret in H as (low & w2 & _ & H).
  apply bind_fst_Ret in H as (ok & w3 & _ & H).
  destruct ok.
  - apply bind_fst_Ret in H as (_ & w4 & _ & H).
    apply bind_fst_Ret in H as (measure & w5 & _ & H).
    apply bind_fst_Ret in H as (depth & w6 & _ & H).
    simpl in H. congruence.
  - simpl in H. congruence.
Qed.

(** C5, amended: after a successful grab [captureImage] retrieves the left
    image and the frame's image timestamp, prints the resolution and the
    timestamp, and returns [None] to its caller; [getDepth] hands no depth
    buffer to its caller, its only return value is [None]. *)
Theorem retrieval_returns_None sl ts w :
  image_names sl -> next_grab_succeeds w ->
  captureImage sl ts VCamera w =
    (Ret VNone,
     after_grab w
       [Call_retrieve_image (VEnum "VIEW" "LEFT");
        Call_get_timestamp (VEnum "TIME_REFERENCE" "IMAGE")]
       [frame_report ts (next_frame w)]) /\
  (forall camera w0 v, fst (getDepth sl camera w0) = Ret v -> v = VNone).
Proof.
  intros Himage Hgrab. split.
  - now apply captureImage_delivered.
  - intros camera w0 v. apply getDepth_Ret_None.
Qed.

Lemma retrieval_returns_None_witness :
  let w := boot working_camera in
  (image_names pyzed /\ next_grab_succeeds w) /\
  captureImage pyzed nanoseconds_str VCamera w =
    (Ret VNone,
     after_grab w
       [Call_retrieve_image (VEnum "VIEW" "LEFT");
        Call_get_timestamp (VEnum "TIME_REFERENCE" "IMAGE")]
       [frame_report nanoseconds_str (next_frame w)]) /\
  (forall camera w0 v, fst (getDepth pyzed camera w0) = Ret v -> v = VNone).
Proof.
  cbv zeta. split.
  - repeat split; vm_compute; reflexivity.
  - apply (retrieval_returns_None pyzed nanoseconds_str (boot working_camera)).
    + repeat split; vm_compute; reflexivity.
    + reflexivity.
Defined.

(** C5 as stated fails: on a camera that delivers a frame, [captureImage]
    returns [None] and not the image with its timestamp, and [getDepth]
    returns no depth buffer. *)
Lemma retrieval_returns_no_data :
  let w := boot working_camera in
  next_grab_succeeds w /\
  fst (captureImage pyzed nanoseconds_str VCamera w) = Ret VNone /\
  ~ returns_data (fst (captureImage pyzed nanoseconds_str VCamera w)) /\
  ~ returns_data (fst (getDepth pyzed VCamera w)).
Proof.
  cbv zeta. split; [reflexivity|]. split; [vm_compute; reflexivity|]. split.
  - intros (v & Hv & Hne). vm_compute in Hv. congruence.
  - intros (v & Hv & Hne). vm_compute in Hv. discriminate.
Qed.

(** ** The distance at a point *)

Ltac try_lines l :=
  exists l; split;
  [ intros s Hs; simpl in *; tauto
  | split;
    [ unfold with_stdout; simpl; rewrite <- ?app_assoc, ?app_nil_r; reflexivity
    | intros v Hv; simpl in Hv; congruence ] ].

Lemma lookup_point_world depth_map point w :
  snd (lookup_point depth_map point w) = w.
Proof.
  unfold lookup_point, bind_method, mbind, M_bind.
  destruct (has_method depth_map "get_value"); simpl; [|reflexivity].
  unfold lift.
  destruct (py_getitem point 0) as [x|]; simpl; [|reflexivity].
  destruct (py_getitem point 1) as [y|]; simpl; [|reflexivity].
  unfold Mat_get_value.
  destruct depth_map; try reflexivity.
  destruct (as_int x); [|reflexivity]. destruct (as_int y); reflexivity.
Qed.

(** [report_distance] only adds diagnostics to the output, and returns the
    very value it was given when it returns. *)
Lemma report_distance_spec distance w :
  exists lines,
    incl lines diagnostics /\
    snd (report_distance distance w) = with_stdout w (stdout w ++ lines) /\
    (forall v, fst (report_distance distance w) = Ret v -> v = distance).
Proof.
  unfold report_distance, diagnostics.
  generalize (truthy (py_eq distance (VInt (-1)))).
  generalize (np_isnan distance ≫= truthy).
  generalize (np_isinf distance ≫= truthy).
  pose (m1 := "Error: Could not get distance for point").
  pose (m2 := "Error: Maybe you're too close to the object?").
  pose (m3 := "Error: Maybe you're too far from the object?").
  destruct w as [out dev n cur op cl].
  intros [[|]|] [[|]|] [[|]|];
    first [ try_lines (@nil string)
          | try_lines [m1] | try_lines [m2] | try_lines [m3]
          | try_lines [m1; m2] | try_lines [m1; m3] | try_lines [m2; m3]
          | try_lines [m1; m2; m3] ].
Qed.

(** The argument [depth_mode] is not read. *)
Lemma getDistForPoint_mode_irrelevant sl depth_map point mode mode' w :
  getDistForPoint sl depth_map point mode w =
  getDistForPoint sl depth_map point mode' w.
Proof. reflexivity. Qed.

(** When [sl.MEASURE.DEPTH] exists the first branch runs: the function is
    the lookup of line 73 followed by the checks. *)
Lemma getDistForPoint_first_branch sl depth_map point mode w member :
  sl_lookup sl "MEASURE" "DEPTH" = Some member ->
  getDistForPoint sl depth_map point mode w =
  (distance ← lookup_point depth_map point; report_distance distance) w.
Proof.
  intros Hdepth. unfold getDistForPoint.
  step (apply sl_attr_Some; exact Hdepth).
  step reflexivity.
  reflexivity.
Qed.

(** What the function returns is what the lookup answered, unchanged. *)
Lemma getDistForPoint_returns_lookup sl depth_map point mode w member v :
  sl_lookup sl "MEASURE" "DEPTH" = Some member ->
  fst (getDistForPoint sl depth_map point mode w) = Ret v ->
  lookup_point depth_map point w = (Ret v, w).
Proof.
  intros Hdepth. rewrite (getDistForPoint_first_branch _ _ _ _ _ _ Hdepth).
  intros H. apply bind_fst_Ret in H as (distance & w' & Hlookup & H).
  destruct (report_distance_spec distance w') as (_ & _ & _ & Hv).
  rewrite (Hv v H).
  pose proof (lookup_point_world depth_map point w) as Hw.
  rewrite Hlookup in Hw. simpl in Hw. now rewrite Hlookup, Hw.
Qed.

(** C10: the condition of the first [if] is the constant [sl.MEASURE.DEPTH],
    a member of an enumeration and therefore true, and [depth_mode] is
    never compared with anything.  So two calls that differ only in
    [depth_mode] return the same value and print the same lines; the
    function is the first branch followed by the checks; and
    [Error: Unknown depth mode] is never printed. *)
Theorem depth_mode_is_ignored sl depth_map point mode mode' w member :
  sl_lookup sl "MEASURE" "DEPTH" = Some member ->
  getDistForPoint sl depth_map point mode w =
    getDistForPoint sl depth_map point mode' w /\
  getDistForPoint sl depth_map point mode w =
    (distance ← lookup_point depth_map point; report_distance distance) w /\
  exists lines,
    stdout (snd (getDistForPoint sl depth_map point mode w)) =
      stdout w ++ lines /\
    incl lines diagnostics /\
    ~ In "Error: Unknown depth mode" lines.
Proof.
  intros Hdepth. split; [reflexivity|].
  split; [now apply getDistForPoint_first_branch with member|].
  rewrite (getDistForPoint_first_branch _ _ _ _ _ _ Hdepth).
  pose proof (lookup_point_world depth_map point w) as Hw.
  destruct (lookup_point depth_map point w) as [[distance|e] w'] eqn:Hlookup;
    simpl in Hw; subst w'.
  - rewrite (bind_Ret _ _ _ _ _ Hlookup).
    destruct (report_distance_spec distance w) as (lines & Hincl & Hout & _).
    exists lines. rewrite Hout. repeat split; [exact Hincl|].
    intros Hin. apply Hincl in Hin. simpl in Hin.
    repeat destruct Hin as [Hin|Hin]; try discriminate Hin. exact Hin.
  - rewrite (bind_Raise _ _ _ _ _ Hlookup). exists []. simpl.
    rewrite app_nil_r. repeat split; [apply incl_nil_l | intros []].
Qed.

Lemma depth_mode_is_ignored_witness :
  let sl := pyzed in
  let depth_map := mat_value origin_cloud in
  let point := VTuple [VInt 0; VInt 0] in
  let mode := VEnum "MEASURE" "DEPTH" in
  let mode' := VEnum "MEASURE" "XYZRGBA" in
  let w := boot working_camera in
  sl_lookup sl "MEASURE" "DEPTH" = Some "DEPTH" /\
  getDistForPoint sl depth_map point mode w =
    getDistForPoint sl depth_map point mode' w /\
  getDistForPoint sl depth_map point mode w =
    (distance ← lookup_point depth_map point; report_distance distance) w /\
  exists lines,
    stdout (snd (getDistForPoint sl depth_map point mode w)) =
      stdout w ++ lines /\
    incl lines diagnostics /\
    ~ In "Error: Unknown depth mode" lines.
Proof.
  cbv zeta. split.
  - vm_compute; reflexivity.
  - apply (depth_mode_is_ignored pyzed (mat_value origin_cloud)
             (VTuple [VInt 0; VInt 0]) (VEnum "MEASURE" "DEPTH")
             (VEnum "MEASURE" "XYZRGBA") (boot working_camera) "DEPTH").
    vm_compute; reflexivity.
Defined.

(** C1: [getDistForPoint] raises.  On a matrix whose [get_value] answers
    with the pair of an error code and a value (the pair that line 75
    unpacks), [np.isnan] refuses the pair; on the camera object that [main]
    passes as [depth_map], there is no [get_value] at all.  Neither mode
    returns a float there. *)
Theorem getDistForPoint_raises :
  (forall width height code v x y mode w,
     getDistForPoint pyzed
       (VMat width height (fun _ _ => VTuple [ERROR_CODE code; v]))
       (VTuple [VInt x; VInt y]) mode w
     = (Raise TypeError, w)) /\
  (forall point mode w,
     getDistForPoint pyzed VCamera point mode w
     = (Raise (AttributeError "get_value"), w)) /\
  getDistForPoint pyzed (mat_value depth_buffer) origin_pixel
    (VEnum "MEASURE" "DEPTH") (boot working_camera)
  = (Raise TypeError, boot working_camera).
Proof.
  repeat split; intros;
    rewrite (getDistForPoint_first_branch _ _ _ _ _ _ pyzed_depth_name);
    reflexivity.
Qed.

(** C3: with the point-cloud mode the function does not compute the
    distance of the 3D point: on a cloud whose pixel is (3, 4, 12) it
    raises, exactly as it does with the depth mode; and the call
    [math.sqrt(a, b, c)] of line 76 would raise for any three arguments. *)
Theorem point_cloud_mode_not_selected :
  (forall w,
     getDistForPoint pyzed (mat_value cloud_3_4_12) origin_pixel
       (VEnum "MEASURE" "XYZRGBA") w
     = (Raise TypeError, w)) /\
  (forall w,
     getDistForPoint pyzed (mat_value cloud_3_4_12) origin_pixel
       (VEnum "MEASURE" "XYZRGBA") w
     = getDistForPoint pyzed (mat_value cloud_3_4_12) origin_pixel
         (VEnum "MEASURE" "DEPTH") w) /\
  (forall a b c, math_sqrt [a; b; c] = Raise TypeError) /\
  math_sqrt [VFloat (3 * 3 + 4 * 4 + 12 * 12)] = Ret (VFloat 13).
Proof.
  repeat split; intros;
    try rewrite (getDistForPoint_first_branch _ _ _ _ _ _ pyzed_depth_name);
    reflexivity.
Qed.

(** C6: on a depth buffer whose lookup at pixel (0,0) fails, the function
    does not return -1 and prints nothing: the error code of the lookup is
    never inspected and the pair makes [np.isnan] raise.  Were the failed
    lookup a bare NaN, the function would return that NaN after the
    too-close message, still not -1. *)
Theorem unset_pixel_not_reported :
  (forall w,
     getDistForPoint pyzed (mat_value unset_buffer) origin_pixel
       (VEnum "MEASURE" "DEPTH") w
     = (Raise TypeError, w)) /\
  (forall w,
     getDistForPoint pyzed (VMat 1280 720 (fun _ _ => VFloat nan))
       origin_pixel (VEnum "MEASURE" "DEPTH") w
     = (Ret (VFloat nan),
        with_stdout w
          (stdout w ++ ["Error: Maybe you're too close to the object?"]))).
Proof.
  repeat split; intros;
    rewrite (getDistForPoint_first_branch _ _ _ _ _ _ pyzed_depth_name);
    reflexivity.
Qed.

(** C7: on a point cloud whose pixel (0,0) is the point (0,0,0) the
    function raises; it does not return 0.0.  Were the lookup to answer
    with the bare array of coordinates, the comparison with -1 would give
    an array, which has no truth value, and the function would raise as
    well. *)
Theorem origin_point_not_measured :
  (forall mode w,
     getDistForPoint pyzed (mat_value origin_cloud) origin_pixel mode w
     = (Raise TypeError, w)) /\
  (forall mode w,
     fst (getDistForPoint pyzed (mat_value origin_cloud) origin_pixel mode w)
     <> Ret (VFloat 0)) /\
  (forall mode w,
     getDistForPoint pyzed
       (VMat 1280 720
          (fun _ _ => VArray [VFloat 0; VFloat 0; VFloat 0; VFloat 0]))
       origin_pixel mode w
     = (Raise ValueError, w)).
Proof.
  assert (H : forall mode w,
    getDistForPoint pyzed (mat_value origin_cloud) origin_pixel mode w
    = (Raise TypeError, w)).
  { intros.
    rewrite (getDistForPoint_first_branch _ _ _ _ _ _ pyzed_depth_name).
    reflexivity. }
  split; [exact H|]. split.
  - intros mode w. rewrite H. discriminate.
  - intros mode w.
    rewrite (getDistForPoint_first_branch _ _ _ _ _ _ pyzed_depth_name).
    reflexivity.
Qed.

(** ** The whole script *)

(** Without a camera the script prints the failure message and exits with
    status 1, having called nothing but [open]. *)
Example missing_camera_exits :
  run pyzed nanoseconds_str missing_camera =
    (Raise (SystemExit 1),
     {| stdout := ["Initializing camera...";
                   "An unexpected error occurred while opening the camera."];
        device := missing_camera; grabs := 0%nat; current := None;
        opened := false; calls := [Call_open fixed_configuration] |}).
Proof. vm_compute; reflexivity. Qed.

Lemma captureImage_not_delivered sl ts w :
  image_names sl -> ~ next_grab_succeeds w ->
  captureImage sl ts VCamera w = (Ret VNone, after_failed_grab w).
Proof.
  intros (Hok & _ & _) Hgrab. unfold captureImage.
  apply String.eqb_neq in Hgrab.
  assert (Hafter : Camera_grab w =
            (Ret (ERROR_CODE (dev_grab (device w) (grabs w))),
             after_failed_grab w)).
  { unfold Camera_grab, after_failed_grab. now rewrite Hgrab. }
  step reflexivity. step (exact Hafter).
  step (apply sl_attr_Some; exact Hok).
  step (unfold lift, ERROR_CODE; rewrite py_eq_enum, Hgrab; reflexivity).
  reflexivity.
Qed.

(** [captureImage] on the camera always returns, grab or no grab. *)
Lemma captureImage_returns sl ts w :
  image_names sl ->
  exists w', captureImage sl ts VCamera w = (Ret VNone, w').
Proof.
  intros Himage.
  destruct (String.eqb_spec (dev_grab (device w) (grabs w)) "SUCCESS")
    as [Hgrab|Hgrab].
  - eexists. now apply captureImage_delivered.
  - eexists. now apply captureImage_not_delivered.
Qed.

(** With the vendor module, [getDepth] raises as soon as it has grabbed:
    [ERROR_CODE] has no attribute [success]. *)
Lemma getDepth_pyzed w :
  getDepth pyzed VCamera w =
    (Raise (AttributeError "success"), snd (Camera_grab w)).
Proof.
  unfold getDepth. step reflexivity. step (unfold Camera_grab; reflexivity).
  apply bind_Raise. reflexivity.
Qed.

(** Even then the script does not reach [close]: [main] passes the camera
    where [getDistForPoint] expects a depth map. *)
Lemma main_passes_the_camera :
  fst (run pyzed_with_alias nanoseconds_str working_camera) =
    Raise (AttributeError "get_value") /\
  ~ In Call_close
      (calls (snd (run pyzed_with_alias nanoseconds_str working_camera))).
Proof.
  split.
  - vm_compute; reflexivity.
  - vm_compute. intuition discriminate.
Qed.

(** C4: the script does not end with status 0 when the camera opens.  With
    the vendor module it ends with status 1 on every device: after a failed
    open through [exit(1)], after a successful open through the
    [AttributeError] that [getDepth] raises.  On a working camera [close]
    is never called. *)
Theorem main_exit_status :
  (forall ts d, exit_status (fst (run pyzed ts d)) = 1) /\
  dev_open working_camera fixed_configuration = "SUCCESS" /\
  fst (run pyzed nanoseconds_str working_camera) =
    Raise (AttributeError "success") /\
  ~ In Call_close (calls (snd (run pyzed nanoseconds_str working_camera))).
Proof.
  split; [|split; [reflexivity|split]].
  - intros ts d. unfold run, main.
    destruct (String.eqb_spec (dev_open d fixed_configuration) "SUCCESS")
      as [Hopen|Hopen].
    + step (apply initCamera_opened; [exact pyzed_open_names | exact Hopen]).
      match goal with
      | |- context [(captureImage pyzed ts VCamera ≫= _) ?w1] =>
          destruct (captureImage_returns pyzed ts w1 pyzed_image_names)
            as [w2 Hcapture]
      end.
      step (exact Hcapture).
      rewrite (bind_Raise _ _ _ _ _ (getDepth_pyzed w2)).
      reflexivity.
    + rewrite (bind_Raise _ _ _ _ _
                 (initCamera_failed pyzed (boot d) pyzed_open_names Hopen)).
      reflexivity.
  - vm_compute; reflexivity.
  - vm_compute. intuition discriminate.
Qed.

(** * Further properties of the script *)

(** ** Relations every statement of a sequence keeps *)

Section Keeps.

Context (R : World -> World -> Prop).
Hypothesis R_refl : forall w, R w w.
Hypothesis R_trans : forall a b c, R a b -> R b c -> R a c.

Lemma keeps_bind {A B} (m : M A) (f : A -> M B) :
  keeps R m -> (forall a, keeps R (f a)) -> keeps R (m ≫= f).
Proof.
  intros Hm Hf w. unfold mbind, M_bind.
  pose proof (Hm w) as Hw. destruct (m w) as [[a|e] w']; simpl in Hw.
  - apply R_trans with w'; [exact Hw | apply Hf].
  - exact Hw.
Qed.

Lemma keeps_pure {A} (m : M A) : pure_step m -> keeps R m.
Proof. intros Hm w. rewrite Hm. apply R_refl. Qed.

End Keeps.

Lemma sl_attr_pure sl cls name : pure_step (sl_attr sl cls name).
Proof.
  intros w. unfold sl_attr. destruct (sl !! cls) as [members|]; [|reflexivity].
  now destruct (members !! name).
Qed.

Lemma lift_pure {A} (r : outcome A) : pure_step (lift r).
Proof. intros w. reflexivity. Qed.

Lemma bind_method_pure self name : pure_step (bind_method self name).
Proof. intros w. unfold bind_method. now destruct (has_method self name). Qed.

Lemma lookup_point_pure depth_map point :
  pure_step (lookup_point depth_map point).
Proof. intros w. apply lookup_point_world. Qed.

(** Walk through a statement sequence, leaving the statements that touch
    the world to the caller. *)
Ltac keeps_walk Hrefl Htrans :=
  repeat match goal with
  | |- keeps _ (_ ≫= _) => apply (keeps_bind _ Htrans); [|intros ?]
  | |- keeps _ (if ?c then _ else _) => destruct c
  | |- keeps _ (when ?c _) => destruct c; unfold when
  | |- keeps _ (let '(_, _) := ?p in _) => destruct p
  | |- keeps _ (mret _) => apply (keeps_pure _ Hrefl); intros ?; reflexivity
  | |- keeps _ (raise _) => apply (keeps_pure _ Hrefl); intros ?; reflexivity
  | |- keeps _ (py_exit _) => apply (keeps_pure _ Hrefl); intros ?; reflexivity
  | |- keeps _ (lift _) => apply (keeps_pure _ Hrefl), lift_pure
  | |- keeps _ (sl_attr _ _ _) => apply (keeps_pure _ Hrefl), sl_attr_pure
  | |- keeps _ (bind_method _ _) => apply (keeps_pure _ Hrefl), bind_method_pure
  | |- keeps _ (lookup_point _ _) =>
      apply (keeps_pure _ Hrefl), lookup_point_pure
  end.

Lemma unchanged_refl {B} (proj : World -> B) w : unchanged proj w w.
Proof. reflexivity. Qed.

Lemma unchanged_trans {B} (proj : World -> B) a b c :
  unchanged proj a b -> unchanged proj b c -> unchanged proj a c.
Proof. unfold unchanged. congruence. Qed.

Lemma only_prints_refl messages w : only_prints messages w w.
Proof.
  exists []. split; [apply incl_nil_l|].
  destruct w. unfold with_stdout. simpl. now rewrite app_nil_r.
Qed.

Lemma only_prints_trans messages a b c :
  only_prints messages a b -> only_prints messages b c ->
  only_prints messages a c.
Proof.
  intros (l1 & H1 & ->) (l2 & H2 & ->). exists (l1 ++ l2). split.
  - now apply incl_app.
  - unfold with_stdout. simpl. now rewrite app_assoc.
Qed.

Lemma print_only_prints messages s :
  In s messages -> keeps (only_prints messages) (print s).
Proof.
  intros Hs w. exists [s]. split; [|reflexivity].
  intros x [<-|[]]. exact Hs.
Qed.

(** ** What the functions never do *)

(** X1: [getDistForPoint] never touches the camera.  Whatever the vendor
    module defines and whatever it is given, and whether it returns or
    raises, it leaves the device, the grab count, the current frame, the
    open flag and the calls as they were; all it does to the world is print
    lines, each of them one of its four messages. *)
Theorem getDistForPoint_only_prints sl depth_map point mode w :
  let w' := snd (getDistForPoint sl depth_map point mode w) in
  exists lines,
    incl lines distance_messages /\
    stdout w' = stdout w ++ lines /\
    device w' = device w /\
    grabs w' = grabs w /\
    current w' = current w /\
    opened w' = opened w /\
    calls w' = calls w.
Proof.
  cbv zeta.
  assert (Hkeeps : keeps (only_prints distance_messages)
                     (getDistForPoint sl depth_map point mode)).
  { unfold getDistForPoint, report_distance.
    keeps_walk (only_prints_refl distance_messages)
               (only_prints_trans distance_messages);
      apply print_only_prints; simpl; tauto. }
  destruct (Hkeeps w) as (lines & Hincl & Hw).
  exists lines. rewrite Hw. now repeat split.
Qed.

(** X2: [getDepth] prints nothing, on any argument and in any world: a grab
    that fails, a retrieval that is skipped and an exception all leave the
    output as it was. *)
Theorem getDepth_prints_nothing sl camera w :
  stdout (snd (getDepth sl camera w)) = stdout w.
Proof.
  assert (Hkeeps : keeps (unchanged stdout) (getDepth sl camera)).
  { unfold getDepth.
    keeps_walk (unchanged_refl stdout) (unchanged_trans stdout);
      intros ?; reflexivity. }
  apply Hkeeps.
Qed.

(** X3: each of the three retrieval functions, called on the camera, grabs
    exactly once, whatever the vendor module defines and whether the grab
    succeeds, the function returns or it raises; none of them changes the
    device or the open flag. *)
Theorem retrieval_grabs_once sl ts w :
  camera_state (snd (captureImage sl ts VCamera w)) =
    (device w, S (grabs w), opened w) /\
  camera_state (snd (getDepth sl VCamera w)) =
    (device w, S (grabs w), opened w) /\
  camera_state (snd (getImageandDepth sl ts VCamera w)) =
    (device w, S (grabs w), opened w).
Proof.
  repeat split.
  all: match goal with
       | |- context [captureImage] => unfold captureImage
       | |- context [getDepth] => unfold getDepth
       | |- context [getImageandDepth] => unfold getImageandDepth
       end.
  all: step reflexivity; step (unfold Camera_grab; reflexivity).
  all: match goal with
       | |- camera_state (snd (?m ?w1)) = _ =>
           assert (Hkeeps : keeps (unchanged camera_state) m)
             by (keeps_walk (unchanged_refl camera_state)
                            (unchanged_trans camera_state);
                 intros ?; reflexivity);
           rewrite (Hkeeps w1)
       end.
  all: reflexivity.
Qed.

(** ** Grabs that fail and grabs that follow one another *)

Lemma Camera_grab_failed w :
  ~ next_grab_succeeds w ->
  Camera_grab w =
    (Ret (ERROR_CODE (dev_grab (device w) (grabs w))), after_failed_grab w).
Proof.
  intros Hgrab. apply String.eqb_neq in Hgrab.
  unfold Camera_grab, after_failed_grab. now rewrite Hgrab.
Qed.

(** X4: when the grab fails, [captureImage] and [getImageandDepth] say
    nothing about it: they retrieve nothing, print nothing and return
    [None], and the frame of an earlier grab stays the current one.  Only
    the name [SUCCESS] has to resolve. *)
Theorem failed_grab_is_silent sl ts w :
  sl_lookup sl "ERROR_CODE" "SUCCESS" = Some "SUCCESS" ->
  ~ next_grab_succeeds w ->
  captureImage sl ts VCamera w = (Ret VNone, after_failed_grab w) /\
  getImageandDepth sl ts VCamera w = (Ret VNone, after_failed_grab w).
Proof.
  intros Hok Hgrab.
  pose proof (Camera_grab_failed w Hgrab) as Hafter.
  apply String.eqb_neq in Hgrab.
  split; [unfold captureImage | unfold getImageandDepth].
  all: step reflexivity; step (exact Hafter).
  all: step (apply sl_attr_Some; exact Hok).
  all: step (unfold lift, ERROR_CODE; rewrite py_eq_enum, Hgrab; reflexivity).
  all: reflexivity.
Qed.

Lemma failed_grab_is_silent_witness :
  let w := boot missing_camera in
  (sl_lookup pyzed "ERROR_CODE" "SUCCESS" = Some "SUCCESS" /\
   ~ next_grab_succeeds w) /\
  captureImage pyzed nanoseconds_str VCamera w =
    (Ret VNone, after_failed_grab w) /\
  getImageandDepth pyzed nanoseconds_str VCamera w =
    (Ret VNone, after_failed_grab w).
Proof.
  cbv zeta. split.
  - split; [vm_compute; reflexivity | discriminate].
  - apply (failed_grab_is_silent pyzed nanoseconds_str (boot missing_camera)).
    + vm_compute; reflexivity.
    + discriminate.
Defined.

(** X5: every call grabs for itself, so two calls in a row report two
    frames.  When two grabs in a row succeed, [captureImage] followed by
    [getImageandDepth] prints the report of the first frame and then the
    report of the second, and the second frame is the current one. *)
Theorem calls_in_a_row_report_frames_in_a_row sl ts w :
  image_names sl -> depth_name sl ->
  dev_grab (device w) (grabs w) = "SUCCESS" ->
  dev_grab (device w) (S (grabs w)) = "SUCCESS" ->
  let first := dev_frame (device w) (grabs w) in
  let second := dev_frame (device w) (S (grabs w)) in
  let r := (captureImage sl ts VCamera;; getImageandDepth sl ts VCamera) w in
  fst r = Ret VNone /\
  stdout (snd r) =
    stdout w ++ [frame_report ts first; frame_report ts second] /\
  current (snd r) = Some second /\
  grabs (snd r) = S (S (grabs w)).
Proof.
  intros Himage Hdepth Hfirst Hsecond. cbv zeta.
  step (apply captureImage_delivered; [exact Himage | exact Hfirst]).
  rewrite getImageandDepth_delivered;
    [| exact Himage | exact Hdepth | exact Hsecond].
  unfold after_grab, next_frame. simpl.
  repeat split. now rewrite <- app_assoc.
Qed.

Lemma calls_in_a_row_report_frames_in_a_row_witness :
  let sl := pyzed in
  let ts := nanoseconds_str in
  let w := boot working_camera in
  (image_names sl /\ depth_name sl /\
   dev_grab (device w) (grabs w) = "SUCCESS" /\
   dev_grab (device w) (S (grabs w)) = "SUCCESS") /\
  let first := dev_frame (device w) (grabs w) in
  let second := dev_frame (device w) (S (grabs w)) in
  let r := (captureImage sl ts VCamera;; getImageandDepth sl ts VCamera) w in
  fst r = Ret VNone /\
  stdout (snd r) =
    stdout w ++ [frame_report ts first; frame_report ts second] /\
  current (snd r) = Some second /\
  grabs (snd r) = S (S (grabs w)).
Proof.
  cbv zeta. split.
  - repeat split; vm_compute; reflexivity.
  - apply (calls_in_a_row_report_frames_in_a_row pyzed nanoseconds_str
             (boot working_camera)).
    + repeat split; vm_compute; reflexivity.
    + vm_compute; reflexivity.
    + reflexivity.
    + reflexivity.
Defined.

(** X6: the retrieval functions need the camera: given any other object
    they raise [AttributeError] at [camera.grab], before any call on the
    device and before any output. *)
Theorem retrieval_needs_the_camera sl ts camera w :
  camera <> VCamera ->
  captureImage sl ts camera w = (Raise (AttributeError "grab"), w) /\
  getDepth sl camera w = (Raise (AttributeError "grab"), w) /\
  getImageandDepth sl ts camera w = (Raise (AttributeError "grab"), w).
Proof.
  intros Hcamera. destruct camera; try contradiction; repeat split.
Qed.

Lemma retrieval_needs_the_camera_witness :
  let camera := mat_value depth_buffer in
  let w := boot working_camera in
  camera <> VCamera /\
  captureImage pyzed nanoseconds_str camera w
    = (Raise (AttributeError "grab"), w) /\
  getDepth pyzed camera w = (Raise (AttributeError "grab"), w) /\
  getImageandDepth pyzed nanoseconds_str camera w
    = (Raise (AttributeError "grab"), w).
Proof.
  cbv zeta. split.
  - discriminate.
  - apply (retrieval_needs_the_camera pyzed nanoseconds_str
             (mat_value depth_buffer) (boot working_camera)).
    discriminate.
Defined.

(** ** The script when the camera does not open *)

(** X7: when [open] does not answer [SUCCESS], the script stops there: it
    has printed its two lines, the process exits with status 1, and the
    only call made on the camera is the [open] itself: no grab, no retry
    and no [close]. *)
Theorem main_stops_when_open_fails sl ts d :
  open_names sl ->
  dev_open d fixed_configuration <> "SUCCESS" ->
  run sl ts d =
    (Raise (SystemExit 1),
     {| stdout := ["Initializing camera...";
                   "An unexpected error occurred while opening the camera."];
        device := d; grabs := 0%nat; current := None; opened := false;
        calls := [Call_open fixed_configuration] |}) /\
  exit_status (fst (run sl ts d)) = 1.
Proof.
  intros Hnames Hopen.
  assert (Hrun : run sl ts d =
    (Raise (SystemExit 1),
     {| stdout := ["Initializing camera...";
                   "An unexpected error occurred while opening the camera."];
        device := d; grabs := 0%nat; current := None; opened := false;
        calls := [Call_open fixed_configuration] |})).
  { unfold run, main.
    now rewrite (bind_Raise _ _ _ _ _
                   (initCamera_failed sl (boot d) Hnames Hopen)). }
  split; [exact Hrun|]. now rewrite Hrun.
Qed.

Lemma main_stops_when_open_fails_witness :
  let sl := pyzed in
  let ts := nanoseconds_str in
  let d := missing_camera in
  (open_names sl /\ dev_open d fixed_configuration <> "SUCCESS") /\
  run sl ts d =
    (Raise (SystemExit 1),
     {| stdout := ["Initializing camera...";
                   "An unexpected error occurred while opening the camera."];
        device := d; grabs := 0%nat; current := None; opened := false;
        calls := [Call_open fixed_configuration] |}) /\
  exit_status (fst (run sl ts d)) = 1.
Proof.
  cbv zeta. split.
  - split; [repeat split; vm_compute; reflexivity | discriminate].
  - apply (main_stops_when_open_fails pyzed nanoseconds_str missing_camera).
    + repeat split; vm_compute; reflexivity.
    + discriminate.
Defined.

(** ** The checks on a distance *)

Lemma SFeqb_finite_refl s m e :
  SFeqb (S754_finite s m e) (S754_finite s m e) = true.
Proof.
  unfold SFeqb, SFcompare.
  destruct s; rewrite Z.compare_refl, Pos.compare_cont_refl; reflexivity.
Qed.

(** Of the three tests on a float (equal to -1, NaN, infinite) at most one
    holds. *)
Lemma float_lines_at_most_one (x : float) : (length (float_lines x) <= 1)%nat.
Proof.
  unfold float_lines, float_eq_Z, is_nan, is_infinity.
  rewrite !FloatAxioms.eqb_spec, FloatAxioms.abs_spec.
  change (Prim2SF infinity) with (S754_infinity false).
  destruct (Prim2SF x) as [s|s| |s m e].
  - simpl. destruct s; simpl; lia.
  - destruct s; simpl; lia.
  - simpl. lia.
  - rewrite SFeqb_finite_refl. simpl.
    match goal with |- context [if ?c then _ else _] => destruct c end;
      simpl; lia.
Qed.

Lemma report_distance_float (x : float) w :
  report_distance (VFloat x) w =
    (Ret (VFloat x), with_stdout w (stdout w ++ float_lines x)).
Proof.
  unfold report_distance, float_lines.
  change (truthy (py_eq (VFloat x) (VInt (-1)))) with (Ret (float_eq_Z x (-1))).
  change (np_isnan (VFloat x) ≫= truthy) with (Ret (is_nan x)).
  change (np_isinf (VFloat x) ≫= truthy) with (Ret (is_infinity x)).
  destruct w as [out dev n cur op cl].
  destruct (float_eq_Z x (-1)), (is_nan x), (is_infinity x);
    unfold mbind, M_bind, lift, when, print, with_stdout; simpl;
    rewrite <- ?app_assoc, ?app_nil_r; reflexivity.
Qed.

(** X8: on a buffer whose lookup answers with a bare float, the function
    returns that very float, whatever the checks say about it.  It prints
    the could-not-get line exactly when the float equals -1, the too-close
    line exactly when it is NaN and the too-far line exactly when it is
    infinite, which makes at most one line; so a pixel that really measures
    -1.0 is reported as a failed lookup. *)
Theorem getDistForPoint_on_a_float
    sl width height get_value x y distance mode w member :
  sl_lookup sl "MEASURE" "DEPTH" = Some member ->
  get_value x y = VFloat distance ->
  getDistForPoint sl (VMat width height get_value) (VTuple [VInt x; VInt y])
    mode w
  = (Ret (VFloat distance),
     with_stdout w (stdout w ++ float_lines distance)) /\
  (length (float_lines distance) <= 1)%nat.
Proof.
  intros Hdepth Hvalue. split; [|apply float_lines_at_most_one].
  rewrite (getDistForPoint_first_branch _ _ _ _ _ _ Hdepth).
  step (unfold lookup_point; repeat step reflexivity; reflexivity).
  rewrite Hvalue. apply report_distance_float.
Qed.

Lemma getDistForPoint_on_a_float_witness :
  let w := boot working_camera in
  (sl_lookup pyzed "MEASURE" "DEPTH" = Some "DEPTH" /\
   mat_get_value (scalar_buffer infinity) 0 0 = VFloat infinity) /\
  getDistForPoint pyzed (VMat 1280 720 (mat_get_value (scalar_buffer infinity)))
    (VTuple [VInt 0; VInt 0]) (VEnum "MEASURE" "DEPTH") w
  = (Ret (VFloat infinity),
     with_stdout w (stdout w ++ float_lines infinity)) /\
  (length (float_lines infinity) <= 1)%nat.
Proof.
  cbv zeta. split.
  - split; [vm_compute; reflexivity | reflexivity].
  - apply (getDistForPoint_on_a_float pyzed 1280 720
             (mat_get_value (scalar_buffer infinity)) 0 0 infinity
             (VEnum "MEASURE" "DEPTH") (boot working_camera) "DEPTH").
    + vm_compute; reflexivity.
    + reflexivity.
Defined.

(** ** The point of a lookup *)

Lemma py_getitem_first x rest : py_getitem (VTuple (x :: rest)) 0 = Ret x.
Proof.
  unfold py_getitem.
  change (Z.of_nat (length (x :: rest))) with (Z.of_nat (S (length rest))).
  assert (H : ((0 <=? 0) && (0 <? Z.of_nat (S (length rest))) = true)%Z).
  { apply andb_true_intro. split; [reflexivity|]. apply Z.ltb_lt. lia. }
  simpl (if 0 <? 0 then _ else _). rewrite H. reflexivity.
Qed.

Lemma py_getitem_second x y rest :
  py_getitem (VTuple (x :: y :: rest)) 1 = Ret y.
Proof.
  unfold py_getitem.
  change (Z.of_nat (length (x :: y :: rest)))
    with (Z.of_nat (S (S (length rest)))).
  assert (H : ((0 <=? 1) && (1 <? Z.of_nat (S (S (length rest)))) = true)%Z).
  { apply andb_true_intro. split; [reflexivity|]. apply Z.ltb_lt. lia. }
  simpl (if 1 <? 0 then _ else _). rewrite H. reflexivity.
Qed.

(** X9: a point with fewer than two coordinates stops the lookup: on a
    matrix, with [sl.MEASURE.DEPTH] defined, the function raises
    [IndexError] at [point[0]] or [point[1]], before it reads the matrix
    and without printing. *)
Theorem getDistForPoint_short_point
    sl width height get_value coordinates mode w member :
  sl_lookup sl "MEASURE" "DEPTH" = Some member ->
  (length coordinates < 2)%nat ->
  getDistForPoint sl (VMat width height get_value) (VTuple coordinates) mode w
  = (Raise IndexError, w).
Proof.
  intros Hdepth Hshort.
  rewrite (getDistForPoint_first_branch _ _ _ _ _ _ Hdepth).
  destruct coordinates as [|x [|y rest]]; [reflexivity | reflexivity |].
  simpl in Hshort. lia.
Qed.

Lemma getDistForPoint_short_point_witness :
  let w := boot working_camera in
  (sl_lookup pyzed "MEASURE" "DEPTH" = Some "DEPTH" /\
   (length [VInt 0] < 2)%nat) /\
  getDistForPoint pyzed (VMat 1280 720 (mat_get_value depth_buffer))
    (VTuple [VInt 0]) (VEnum "MEASURE" "DEPTH") w
  = (Raise IndexError, w).
Proof.
  cbv zeta. split.
  - split; [vm_compute; reflexivity | simpl; lia].
  - apply (getDistForPoint_short_point pyzed 1280 720
             (mat_get_value depth_buffer) [VInt 0] (VEnum "MEASURE" "DEPTH")
             (boot working_camera) "DEPTH").
    + vm_compute; reflexivity.
    + simpl; lia.
Defined.

(** X10: only [point[0]] and [point[1]] are read: whatever follows the
    first two coordinates of the point changes neither the result nor the
    output, for every vendor module and every depth map. *)
Theorem getDistForPoint_reads_two_coordinates
    sl depth_map x y rest mode w :
  getDistForPoint sl depth_map (VTuple (x :: y :: rest)) mode w =
  getDistForPoint sl depth_map (VTuple [x; y]) mode w.
Proof.
  unfold getDistForPoint, lookup_point.
  rewrite (py_getitem_first x (y :: rest)), (py_getitem_second x y rest).
  rewrite (py_getitem_first x [y]), (py_getitem_second x y []).
  reflexivity.
Qed.
